(** * denorm.fields: the denormalized field wrappers

    A shallow embedding of [denorm/fields.py]: the three field wrappers
    ([DenormDBField] produced by [denormalized], [CountField] and
    [CacheKeyField]), their constructors, their attachment to a model class
    and their [pre_save] policies, together with the properties the
    specification states about them.

    Python objects are records; keyword dictionaries are finite maps from
    names to values; a model instance is the mutable state threaded through
    [pre_save]; an exception is the [Raise] outcome of a computation. *)

From stdpp Require Import gmap strings list fin_maps.
From Stdlib Require Import ZArith.

Set Warnings "-register-all".
Open Scope Z_scope.

(** ** Python values and outcomes *)

(** The values that travel through keyword arguments, attributes and
    database columns. *)
Inductive pyval : Type :=
| VNone
| VBool (b : bool)
| VInt (n : Z)
| VStr (s : string)
| VTuple (items : list pyval)
| VDict (items : list (string * pyval)).

Inductive exn : Type :=
| IndexError
| AttributeError (attr : string)
| Exception (cls : string).

Inductive result (A : Type) : Type :=
| Ok (a : A)
| Raise (e : exn).
Arguments Ok {A} a.
Arguments Raise {A} e.

(** Keyword arguments, [**kwargs]. *)
Abbreviation kwargs_t := (gmap string pyval).

(** [kwargs.pop(key, dflt)]: the value removed and the dictionary left. *)
Definition dict_pop (key : string) (dflt : pyval) (kw : kwargs_t)
  : pyval * kwargs_t :=
  (default dflt (kw !! key), delete key kw).

(** ** Model instances *)

(** A model instance: its primary key ([None] until the row is inserted) and
    its other attributes. *)
Record Instance : Type := mkInstance {
  pk : option Z;
  attrs : kwargs_t
}.

Definition getattr (o : Instance) (name : string) : option pyval :=
  attrs o !! name.

Definition setattr (o : Instance) (name : string) (v : pyval) : Instance :=
  {| pk := pk o; attrs := <[name := v]> (attrs o) |}.

(** ** Computations on a model instance

    [pre_save] and the compute functions receive the model instance, may
    write to it, and either return a value or raise. *)
Definition M (A : Type) : Type := Instance → result A * Instance.

#[global] Instance M_ret : MRet M := λ A a o, (Ok a, o).
#[global] Instance M_bind : MBind M := λ A B f m o,
  match m o with
  | (Ok a, o') => f a o'
  | (Raise e, o') => (Raise e, o')
  end.

Definition raise {A} (e : exn) : M A := λ o, (Raise e, o).
Definition lift {A} (r : result A) : M A := λ o, (r, o).
Definition do_setattr (name : string) (v : pyval) : M unit :=
  λ o, (Ok tt, setattr o name v).
Definition the_instance : M Instance := λ o, (Ok o, o).

(** Reading an attribute of [self] that is only set once the field has been
    attached: unset, Python raises [AttributeError]. *)
Definition attribute {A} (name : string) (a : option A) : M A :=
  match a with
  | Some x => mret x
  | None => raise (AttributeError name)
  end.

(** ** The persisted store and the point lookup *)

(** A row gives every column a value. *)
Definition Row : Type := string → pyval.

(** The tables of the store, by model; a table is keyed by primary key. *)
Abbreviation Table := (gmap Z Row).
Abbreviation DB := (gmap string (gmap Z Row)).

(** [model.objects] *)
Definition objects (db : DB) (model : string) : Table :=
  default ∅ (db !! model).

(** [.filter(pk=...)]: the rows with that primary key. *)
Definition filter_pk (tbl : Table) (key : option Z) : list Row :=
  match key with
  | Some k => option_list (tbl !! k)
  | None => []
  end.

(** [.values_list(attname, flat=True)] *)
Definition values_list_flat (attname : string) (qs : list Row) : list pyval :=
  (λ r, r attname) <$> qs.

(** [qs[0]] *)
Definition index0 {A} (qs : list A) : result A :=
  match qs with
  | x :: _ => Ok x
  | [] => Raise IndexError
  end.

(** ** Signals *)

(** The handlers this module connects: the [setup] method of a denorm
    object (a bound method, identified by its object) and the two
    module-level many-to-many handlers of [denorms]. *)
Inductive receiver : Type :=
| denorm_setup (oid : nat)
| many_to_many_pre_save
| many_to_many_post_save.

#[global] Instance receiver_eq_dec : EqDecision receiver.
Proof. solve_decision. Defined.

(** The key of a registration: the identities of the receiver and of the
    sender, [None] for a registration without sender. *)
Definition lookup_key : Type := receiver * option string.

Abbreviation Signal := (list (lookup_key * receiver)).

(** Modelled from the spec: [django.dispatch.Signal.connect], the host
    framework's registration, which is not part of this repository: a
    registration has at-most-once semantics per (handler identity,
    subject type) pair; a new pair is appended to the receivers. *)
Definition connect (receivers : Signal) (r : receiver)
    (sender : option string) : Signal :=
  let key : lookup_key := (r, sender) in
  if decide (key ∈ fst <$> receivers) then receivers
  else receivers ++ [(key, r)].

Record Signals : Type := mkSignals {
  class_prepared : Signal;
  pre_save_signal : Signal;
  post_save_signal : Signal
}.

Definition no_signals : Signals :=
  {| class_prepared := []; pre_save_signal := []; post_save_signal := [] |}.

(** How many registrations a signal holds under a key. *)
Definition registrations (receivers : Signal) (key : lookup_key) : nat :=
  length (filter (λ e, e.1 = key) receivers).

(** ** Descriptors and dependency declarations *)

(** A dependency declaration object: the class it was built from, the
    arguments it was built with, and the [fieldname] attribute that is set
    on it later. *)
Record Dependency : Type := mkDependency {
  dep_class : string;
  dep_args : list pyval;
  dep_kwargs : kwargs_t;
  dep_fieldname : option string
}.

(** The constructor call of a declaration class [dcls] on [dargs] and
    [dkwargs]. *)
Definition construct_dependency (dcls : string) (dargs : list pyval)
    (dkwargs : kwargs_t) : Dependency :=
  {| dep_class := dcls; dep_args := dargs; dep_kwargs := dkwargs;
     dep_fieldname := None |}.

(** A compute function, with the [depend] attribute it may carry: a list of
    (declaration class, args, kwargs). *)
Record ComputeFunction : Type := mkComputeFunction {
  call : M pyval;
  fn_depend : option (list (string * list pyval * kwargs_t))
}.

(** What a base field constructor received. *)
Record BaseInit : Type := mkBaseInit {
  init_args : list pyval;
  init_kwargs : kwargs_t
}.

(** A field class of the host: where it is defined, its name, and the
    attribute name it stores a field called [name] under. *)
Record FieldClass : Type := mkFieldClass {
  fc_module : string;
  fc_name : string;
  get_attname : string → string
}.

Definition PositiveIntegerField : FieldClass :=
  {| fc_module := "django.db.models.fields";
     fc_name := "PositiveIntegerField"; get_attname := id |}.

Definition BigIntegerField : FieldClass :=
  {| fc_module := "django.db.models.fields";
     fc_name := "BigIntegerField"; get_attname := id |}.

(** [sep.join(parts)] *)
Fixpoint join (sep : string) (parts : list string) : string :=
  match parts with
  | [] => ""
  | [p] => p
  | p :: rest => p +:+ sep +:+ join sep rest
  end.

(** The triple South asks a field for. *)
Definition field_triple : Type :=
  string * list string * gmap string string.

(** South's introspector: the positional and keyword arguments, as source
    text, that it reads off a field. *)
Definition south_args : Type := list string * gmap string string.

(** ** The computed field: [denormalized] and [DenormDBField] *)

Module DenormDBField.

Inductive denorm_class : Type := BaseCallbackDenorm | CallbackDenorm.

(** Modelled from the spec: the callback descriptor classes of [denorms],
    which are not part of this file; a descriptor holds a compute
    function, a dependency list, the owning type, the attribute name and
    the skip condition. *)
Record Denorm : Type := mkDenorm {
  d_class : denorm_class;
  d_oid : nat;
  d_skip : pyval;
  d_func : ComputeFunction;
  d_depend : list Dependency;
  d_model : string;
  d_fieldname : string
}.

Record t : Type := mk {
  DBField : FieldClass;
  func : ComputeFunction;
  skip : pyval;
  base : BaseInit;
  denorm : option Denorm;
  field_args : option (list pyval * kwargs_t);
  attname : option string
}.

Definition __init__ (DBField : FieldClass) (func : ComputeFunction)
    (args : list pyval) (kwargs : kwargs_t) : t :=
  let '(skip, kwargs) := dict_pop "skip" VNone kwargs in
  {| DBField := DBField; func := func; skip := skip;
     base := {| init_args := args; init_kwargs := kwargs |};
     denorm := None; field_args := None; attname := None |}.

(** [DENORM_BULK_UNSAFE_TRIGGERS] is [None] when the settings do not have
    it; [oid] is the identity of the descriptor object created here. *)
Definition contribute_to_class (DENORM_BULK_UNSAFE_TRIGGERS : option bool)
    (oid : nat) (self : t) (cls name : string)
    (args : list pyval) (kwargs : kwargs_t) (signals : Signals)
  : t * Signals :=
  let dcls :=
    match DENORM_BULK_UNSAFE_TRIGGERS with
    | Some true => BaseCallbackDenorm
    | _ => CallbackDenorm
    end in
  let d :=
    {| d_class := dcls; d_oid := oid; d_skip := skip self;
       d_func := func self;
       d_depend :=
         (λ '(dcls, dargs, dkwargs), construct_dependency dcls dargs dkwargs)
           <$> default [] (fn_depend (func self));
       d_model := cls; d_fieldname := name |} in
  let signals :=
    {| class_prepared :=
         connect (class_prepared signals) (denorm_setup oid) (Some cls);
       pre_save_signal :=
         connect (pre_save_signal signals) many_to_many_pre_save (Some cls);
       post_save_signal :=
         connect (post_save_signal signals) many_to_many_post_save
           (Some cls) |} in
  ({| DBField := DBField self; func := func self; skip := skip self;
      base := base self; denorm := Some d;
      field_args := Some (args, kwargs);
      attname := Some (get_attname (DBField self) name) |},
   signals).

Definition pre_save (self : t) (model_instance : Instance) (add : bool)
  : result pyval * Instance :=
  (d ← attribute "denorm" (denorm self);
   value ← call (d_func d);
   attname ← attribute "attname" (attname self);
   do_setattr attname value;;
   mret value) model_instance.

Definition south_field_triple (introspector : t → south_args) (self : t)
  : field_triple :=
  let field_class := fc_module (DBField self) +:+ "." +:+ fc_name (DBField self) in
  let '(args, kwargs) := introspector self in
  (field_class, args, kwargs).

(** [deco] works on the keyword dictionary that [denormalized] closed
    over and leaves its changes in it: the field and the dictionary
    afterwards. *)
Definition deco (DBField : FieldClass) (args : list pyval)
    (kwargs : kwargs_t) (func : ComputeFunction) : t * kwargs_t :=
  let kwargs := <["blank" := VBool true]> kwargs in
  let kwargs :=
    match kwargs !! "default" with
    | None => <["null" := VBool true]> kwargs
    | Some _ => kwargs
    end in
  let dbfield := __init__ DBField func args kwargs in
  (dbfield, kwargs).

End DenormDBField.

Definition denormalized (DBField : FieldClass) (args : list pyval)
    (kwargs : kwargs_t) : ComputeFunction → DenormDBField.t * kwargs_t :=
  DenormDBField.deco DBField args kwargs.

(** ** The count field *)

Module CountField.

(** Modelled from the spec: the count descriptor class [CountDenorm] of
    [denorms], which is not part of this file; built from the skip
    condition, it is given the manager name and the row filter, and later
    the owning type and the attribute name. *)
Record Denorm : Type := mkDenorm {
  d_oid : nat;
  d_skip : pyval;
  d_manager_name : string;
  d_filter : pyval;
  d_model : option string;
  d_fieldname : option string
}.

Record t : Type := mk {
  denorm : Denorm;
  kwargs : kwargs_t;
  base : BaseInit;
  attname : option string
}.

(** [oid] is the identity of the descriptor object created here.
    [self.kwargs] is the dictionary that then gets its ['default'], so it
    holds it as well. *)
Definition __init__ (oid : nat) (manager_name : string) (kwargs : kwargs_t)
  : t :=
  let '(skip, kwargs) := dict_pop "skip" VNone kwargs in
  let '(qs_filter, kwargs) := dict_pop "filter" (VDict []) kwargs in
  let d :=
    {| d_oid := oid; d_skip := skip; d_manager_name := manager_name;
       d_filter := qs_filter; d_model := None; d_fieldname := None |} in
  let kwargs := <["default" := VInt 0]> kwargs in
  {| denorm := d; kwargs := kwargs;
     base := {| init_args := []; init_kwargs := kwargs |};
     attname := None |}.

Definition contribute_to_class (self : t) (cls name : string)
    (signals : Signals) : t * Signals :=
  let d := denorm self in
  let d :=
    {| d_oid := d_oid d; d_skip := d_skip d;
       d_manager_name := d_manager_name d; d_filter := d_filter d;
       d_model := Some cls; d_fieldname := Some name |} in
  let signals :=
    {| class_prepared :=
         connect (class_prepared signals) (denorm_setup (d_oid d)) None;
       pre_save_signal := pre_save_signal signals;
       post_save_signal := post_save_signal signals |} in
  ({| denorm := d; kwargs := kwargs self; base := base self;
      attname := Some (get_attname PositiveIntegerField name) |},
   signals).

Definition south_field_triple (self : t) : field_triple :=
  (join "." ["django"; "db"; "models"; fc_name PositiveIntegerField],
   [],
   {["default" := "0"]}).

Definition pre_save (db : DB) (self : t) (model_instance : Instance)
    (add : bool) : result pyval * Instance :=
  (value ←
     (if add then
        mret (VInt 0)
      else
        model ← attribute "model" (d_model (denorm self));
        o ← the_instance;
        attname ← attribute "attname" (attname self);
        lift (index0 (values_list_flat attname
                        (filter_pk (objects db model) (pk o)))));
   attname ← attribute "attname" (attname self);
   do_setattr attname value;;
   mret value) model_instance.

End CountField.

(** ** The cache-key field *)

Module CacheKeyField.

(** Modelled from the spec: the cache-key descriptor class
    [BaseCacheKeyDenorm] of [denorms], which is not part of this file: its
    dependency list is exactly the list it is built from, and its compute
    function generates a token. *)
Record Denorm : Type := mkDenorm {
  d_oid : nat;
  d_depend : list Dependency;
  d_func : M pyval;
  d_model : string;
  d_fieldname : string
}.

Record t : Type := mk {
  dependencies : list Dependency;
  kwargs : kwargs_t;
  base : BaseInit;
  denorm : option Denorm;
  attname : option string
}.

Definition __init__ (kwargs : kwargs_t) : t :=
  let kwargs := <["default" := VInt 0]> kwargs in
  {| dependencies := []; kwargs := kwargs;
     base := {| init_args := []; init_kwargs := kwargs |};
     denorm := None; attname := None |}.

Definition depend_on_related (self : t) (args : list pyval)
    (kwargs' : kwargs_t) : t :=
  {| dependencies :=
       dependencies self
         ++ [construct_dependency "CacheKeyDependOnRelated" args kwargs'];
     kwargs := kwargs self; base := base self; denorm := denorm self;
     attname := attname self |}.

Definition set_fieldname (name : string) (depend : Dependency)
  : Dependency :=
  {| dep_class := dep_class depend; dep_args := dep_args depend;
     dep_kwargs := dep_kwargs depend; dep_fieldname := Some name |}.

(** [oid] is the identity of the descriptor object created here and
    [token] the compute function its class gives it. *)
Definition contribute_to_class (oid : nat) (token : M pyval) (self : t)
    (cls name : string) (signals : Signals) : t * Signals :=
  let dependencies := set_fieldname name <$> dependencies self in
  let d :=
    {| d_oid := oid; d_depend := dependencies; d_func := token;
       d_model := cls; d_fieldname := name |} in
  let signals :=
    {| class_prepared :=
         connect (class_prepared signals) (denorm_setup oid) None;
       pre_save_signal := pre_save_signal signals;
       post_save_signal := post_save_signal signals |} in
  ({| dependencies := dependencies; kwargs := kwargs self;
      base := base self; denorm := Some d;
      attname := Some (get_attname BigIntegerField name) |},
   signals).

Definition pre_save (db : DB) (self : t) (model_instance : Instance)
    (add : bool) : result pyval * Instance :=
  (value ←
     (if add then
        d ← attribute "denorm" (denorm self);
        d_func d
      else
        d ← attribute "denorm" (denorm self);
        o ← the_instance;
        attname ← attribute "attname" (attname self);
        lift (index0 (values_list_flat attname
                        (filter_pk (objects db (d_model d)) (pk o)))));
   attname ← attribute "attname" (attname self);
   do_setattr attname value;;
   mret value) model_instance.

Definition south_field_triple (self : t) : field_triple :=
  (join "." ["django"; "db"; "models"; fc_name BigIntegerField],
   [],
   {["default" := "0"]}).

End CacheKeyField.

(** * Definitions for the properties *)

(** ** Attached fields *)

(** A count field attached to [cls] under [name]. *)
Definition count_attached (self : CountField.t) (cls name : string) : Prop :=
  CountField.attname self = Some name
  ∧ CountField.d_model (CountField.denorm self) = Some cls.

(** A cache-key field attached to [cls] under [name], with compute function
    [token]. *)
Definition cache_key_attached (self : CacheKeyField.t) (cls name : string)
    (token : M pyval) : Prop :=
  CacheKeyField.attname self = Some name
  ∧ ∃ d, CacheKeyField.denorm self = Some d
         ∧ CacheKeyField.d_model d = cls
         ∧ CacheKeyField.d_func d = token.

(** A computed field attached under the attribute name [name], with the
    compute function [f] bound to its descriptor. *)
Definition computed_attached (self : DenormDBField.t) (name : string)
    (f : M pyval) : Prop :=
  DenormDBField.attname self = Some name
  ∧ ∃ d, DenormDBField.denorm self = Some d
         ∧ call (DenormDBField.d_func d) = f.

(** The persisted row of [model] for the primary key of an instance. *)
Definition persisted (db : DB) (model : string) (o : Instance) : option Row :=
  k ← pk o; objects db model !! k.

(** ** A scenario: authors and their books *)

Definition author_row (count : Z) : Row :=
  λ column,
    if String.eqb column "book_count" then VInt count
    else if String.eqb column "cache_key" then VInt 77
    else VNone.

Definition book_row (author : Z) : Row :=
  λ column, if String.eqb column "author_id" then VInt author else VNone.

(** The store holds author 1 with a count of 3 and a token of 77, and two
    of its books. *)
Definition author_db : DB :=
  <["Author" := {[1 := author_row 3]}]>
    (<["Book" := <[10 := book_row 1]> {[11 := book_row 1]}]> ∅).

(** The same store before author 1 was inserted. *)
Definition empty_author_db : DB := <["Author" := ∅]> ∅.

(** Author 1 as loaded before the count became 3. *)
Definition author : Instance :=
  {| pk := Some 1; attrs := {["book_count" := VInt 0]} |}.

Definition book_count_field : CountField.t :=
  (CountField.contribute_to_class (CountField.__init__ 0 "books" ∅)
     "Author" "book_count" no_signals).1.

(** An author that has not been inserted yet, with a count left over in
    memory. *)
Definition unsaved_author : Instance :=
  {| pk := None; attrs := {["book_count" := VInt 9]} |}.

(** ** A scenario: orders and their total *)

Definition IntegerField : FieldClass :=
  {| fc_module := "django.db.models.fields"; fc_name := "IntegerField";
     get_attname := id |}.

Definition sum_amounts (lines : list pyval) : Z :=
  foldr (λ line acc, match line with VInt n => n + acc | _ => acc end) 0 lines.

(** The total of the lines of an order; an order without lines is a
    [TypeError]. *)
Definition order_total : ComputeFunction :=
  {| call := λ o,
       match getattr o "lines" with
       | Some (VTuple lines) => (Ok (VInt (sum_amounts lines)), o)
       | _ => (Raise (Exception "TypeError"), o)
       end;
     fn_depend := None |}.

Definition total_field : DenormDBField.t :=
  (DenormDBField.contribute_to_class None 0
     (denormalized IntegerField [] ∅ order_total).1
     "Order" "total" [] ∅ no_signals).1.

Definition order : Instance :=
  {| pk := Some 7;
     attrs := <["lines" := VTuple [VInt 40; VInt 2]]> {["total" := VInt 5]} |}.

Definition broken_order : Instance :=
  {| pk := Some 8; attrs := {["total" := VInt 5]} |}.

(** A compute function that assigns the total itself and then raises. *)
Definition overwriting_total : ComputeFunction :=
  {| call := λ o,
       (Raise (Exception "ValueError"), setattr o "total" (VInt 99));
     fn_depend := None |}.

Definition overwriting_field : DenormDBField.t :=
  (DenormDBField.contribute_to_class None 0
     (denormalized IntegerField [] ∅ overwriting_total).1
     "Order" "total" [] ∅ no_signals).1.

(** ** A scenario: the cache key of an author *)

Definition fixed_token : M pyval := λ o, (Ok (VInt 123456789), o).

Definition failing_token : M pyval := raise (Exception "RuntimeError").

Definition cache_key_field (token : M pyval) : CacheKeyField.t :=
  (CacheKeyField.contribute_to_class 1 token (CacheKeyField.__init__ ∅)
     "Author" "cache_key" no_signals).1.

(** ** Registration of the many-to-many hooks *)

(** A computed field about to be attached: the identity its descriptor will
    get, the field, and the name it is attached under. *)
Definition attachment : Type := nat * DenormDBField.t * string.

Definition attach (bulk : option bool) (cls : string) (a : attachment)
    (signals : Signals) : Signals :=
  let '(oid, self, name) := a in
  (DenormDBField.contribute_to_class bulk oid self cls name [] ∅ signals).2.

(** Attaching several computed fields to the same class, in turn. *)
Definition attach_all (bulk : option bool) (cls : string)
    (fields : list attachment) (signals : Signals) : Signals :=
  foldl (λ signals a, attach bulk cls a signals) signals fields.

Definition shipping_cost : ComputeFunction :=
  {| call := λ o, (Ok (VInt 3), o); fn_depend := None |}.

(** ** Dependencies of a cache-key field *)

(** A sequence of [depend_on_related] calls on a field, each with its
    arguments. *)
Definition declare (self : CacheKeyField.t)
    (calls : list (list pyval * kwargs_t)) : CacheKeyField.t :=
  foldl (λ self call, CacheKeyField.depend_on_related self call.1 call.2)
    self calls.

(** The declaration a call creates. *)
Definition declaration (call : list pyval * kwargs_t) : Dependency :=
  construct_dependency "CacheKeyDependOnRelated" call.1 call.2.

(** ** The migration triple *)

(** Recreating a field from its triple alone: [rebuild] gets the keyword
    arguments of the underlying field back, as far as the option
    [option_name] goes. *)
Definition recreates_option (rebuild : field_triple → kwargs_t)
    (option_name : string) (self : CountField.t) : Prop :=
  rebuild (CountField.south_field_triple self) !! option_name
  = init_kwargs (CountField.base self) !! option_name.

(** A count field for the books of an author, and the same field stored in
    the column [n_books]. *)
Definition plain_count_field : CountField.t :=
  CountField.__init__ 0 "books" ∅.

Definition named_count_field : CountField.t :=
  CountField.__init__ 0 "books" {["db_column" := VStr "n_books"]}.

(** ** The constructors *)

(** Every keyword other than ['blank'] and ['null'] reaches the constructor
    of the underlying field as the caller gave it. *)
Definition forwards_unchanged (kwargs : kwargs_t) (self : DenormDBField.t)
  : Prop :=
  ∀ key, key ≠ "blank" → key ≠ "null" →
    init_kwargs (DenormDBField.base self) !! key = kwargs !! key.

(** A computed field declared with a skip condition. *)
Definition skip_kwargs : kwargs_t := {["skip" := VTuple [VStr "lines"]]}.

(** ** Registries *)

(** Every registration of [before] is still in [after], at its place. *)
Definition keeps_registrations (before after : Signals) : Prop :=
  class_prepared before `prefix_of` class_prepared after
  ∧ pre_save_signal before `prefix_of` pre_save_signal after
  ∧ post_save_signal before `prefix_of` post_save_signal after.

(** The descriptor identities of a list of attachments. *)
Definition attachment_oids (fields : list attachment) : list nat :=
  (λ a : attachment, a.1.1) <$> fields.

(** What a declaration was built from. *)
Definition declared_from (dep : Dependency)
  : string * list pyval * kwargs_t :=
  (dep_class dep, dep_args dep, dep_kwargs dep).

(** * Properties *)

(** ** Attached fields *)

Lemma count_contribute_attached self cls name signals :
  count_attached (CountField.contribute_to_class self cls name signals).1
    cls name.
Proof. by split. Qed.

Lemma cache_key_contribute_attached oid token self cls name signals :
  cache_key_attached
    (CacheKeyField.contribute_to_class oid token self cls name signals).1
    cls name token.
Proof. split; [done | eauto]. Qed.

Lemma computed_contribute_attached bulk oid self cls name args kwargs signals :
  computed_attached
    (DenormDBField.contribute_to_class bulk oid self cls name args kwargs
       signals).1
    (get_attname (DenormDBField.DBField self) name)
    (call (DenormDBField.func self)).
Proof. split; [done | eauto]. Qed.

Lemma read_back db model attname o :
  index0 (values_list_flat attname (filter_pk (objects db model) (pk o)))
  = match persisted db model o with
    | Some row => Ok (row attname)
    | None => Raise IndexError
    end.
Proof.
  unfold persisted, filter_pk. destruct (pk o) as [k|]; simpl; [|done].
  by destruct (objects db model !! k).
Qed.

Lemma count_pre_save_insert db self cls name o :
  count_attached self cls name →
  CountField.pre_save db self o true = (Ok (VInt 0), setattr o name (VInt 0)).
Proof. intros [Ha _]. unfold CountField.pre_save. by rewrite Ha. Qed.

Lemma count_pre_save_update db self cls name o :
  count_attached self cls name →
  CountField.pre_save db self o false
  = match persisted db cls o with
    | Some row => (Ok (row name), setattr o name (row name))
    | None => (Raise IndexError, o)
    end.
Proof.
  intros [Ha Hm]. unfold CountField.pre_save. rewrite Ha, Hm.
  unfold mbind, M_bind; simpl. unfold lift. rewrite read_back.
  by destruct (persisted db cls o).
Qed.

Lemma cache_key_pre_save_insert db self cls name token o :
  cache_key_attached self cls name token →
  CacheKeyField.pre_save db self o true
  = match token o with
    | (Ok value, o') => (Ok value, setattr o' name value)
    | (Raise e, o') => (Raise e, o')
    end.
Proof.
  intros (Ha & d & Hd & _ & <-). unfold CacheKeyField.pre_save.
  rewrite Ha, Hd. unfold mbind, M_bind; simpl.
  by destruct (CacheKeyField.d_func d o) as [[value|e] o'].
Qed.

Lemma cache_key_pre_save_update db self cls name token o :
  cache_key_attached self cls name token →
  CacheKeyField.pre_save db self o false
  = match persisted db cls o with
    | Some row => (Ok (row name), setattr o name (row name))
    | None => (Raise IndexError, o)
    end.
Proof.
  intros (Ha & d & Hd & <- & _). unfold CacheKeyField.pre_save.
  rewrite Ha, Hd. unfold mbind, M_bind; simpl. unfold lift.
  rewrite read_back. by destruct (persisted db _ o).
Qed.

Lemma computed_pre_save self name f o add :
  computed_attached self name f →
  DenormDBField.pre_save self o add
  = match f o with
    | (Ok value, o') => (Ok value, setattr o' name value)
    | (Raise e, o') => (Raise e, o')
    end.
Proof.
  intros (Ha & d & Hd & <-). unfold DenormDBField.pre_save.
  rewrite Ha, Hd. unfold mbind, M_bind; simpl.
  by destruct (call (DenormDBField.d_func d) o) as [[value|e] o'].
Qed.

Lemma getattr_setattr o name v : getattr (setattr o name v) name = Some v.
Proof. apply lookup_insert_eq. Qed.

(** ** The count field's pre-save policy *)

(** C1: for a count field attached to [cls] under [name], [pre_save] with
    [add = true] writes 0 to the attribute and returns 0, whatever the
    store and the instance hold, so that the attribute reads 0 afterwards;
    with [add = false] it writes and returns the value of the persisted row
    of the instance's primary key, as it is, so that the attribute reads
    that value afterwards; and the outcome of an update is fixed by that
    persisted row alone, so no other table (the rows a relation manager
    would count) enters it. *)
Theorem count_pre_save_policy db self cls name o :
  count_attached self cls name →
  (CountField.pre_save db self o true
   = (Ok (VInt 0), setattr o name (VInt 0))
   ∧ getattr (CountField.pre_save db self o true).2 name = Some (VInt 0))
  ∧ (∀ row, persisted db cls o = Some row →
       CountField.pre_save db self o false
       = (Ok (row name), setattr o name (row name))
       ∧ getattr (CountField.pre_save db self o false).2 name
         = Some (row name))
  ∧ (∀ db', persisted db' cls o = persisted db cls o →
       CountField.pre_save db' self o false
       = CountField.pre_save db self o false).
Proof.
  intros Hat. split; [|split].
  - rewrite (count_pre_save_insert _ _ _ _ _ Hat).
    split; [done | apply getattr_setattr].
  - intros row Hrow. rewrite (count_pre_save_update _ _ _ _ _ Hat), Hrow.
    split; [done | apply getattr_setattr].
  - intros db' Hsame. by rewrite !(count_pre_save_update _ _ _ _ _ Hat), Hsame.
Qed.

Lemma count_pre_save_policy_witness :
  (CountField.pre_save author_db book_count_field unsaved_author true
   = (Ok (VInt 0), setattr unsaved_author "book_count" (VInt 0))
   ∧ getattr (CountField.pre_save author_db book_count_field unsaved_author
                true).2 "book_count" = Some (VInt 0))
  ∧ (CountField.pre_save author_db book_count_field author false
     = (Ok (VInt 3), setattr author "book_count" (VInt 3))
     ∧ getattr (CountField.pre_save author_db book_count_field author false).2
         "book_count" = Some (VInt 3))
  ∧ CountField.pre_save (delete "Book" author_db) book_count_field author false
    = CountField.pre_save author_db book_count_field author false.
Proof.
  destruct (count_pre_save_policy author_db book_count_field "Author"
              "book_count" unsaved_author
              (count_contribute_attached _ _ _ _)) as (Hadd & _ & _).
  destruct (count_pre_save_policy author_db book_count_field "Author"
              "book_count" author
              (count_contribute_attached _ _ _ _)) as (_ & Hupd & Hdb).
  split; [exact Hadd|]. split.
  - apply (Hupd (author_row 3)). reflexivity.
  - apply Hdb. reflexivity.
Defined.

(** ** The computed field's pre-save behaviour *)

(** C2: for a computed field attached under [name] whose descriptor is bound
    to the compute function [f], when [f] returns [value] on the instance,
    [pre_save] writes [value] to the attribute and returns it, on INSERT
    and on UPDATE alike, so that the attribute afterwards is [value]. *)
Theorem computed_pre_save_stores_result self name f o add value o' :
  computed_attached self name f →
  f o = (Ok value, o') →
  DenormDBField.pre_save self o add = (Ok value, setattr o' name value)
  ∧ getattr (DenormDBField.pre_save self o add).2 name = Some value.
Proof.
  intros Hat Hf. rewrite (computed_pre_save _ _ _ _ _ Hat), Hf.
  split; [done | apply getattr_setattr].
Qed.

Lemma computed_pre_save_stores_result_witness :
  (DenormDBField.pre_save total_field order true
   = (Ok (VInt 42), setattr order "total" (VInt 42))
   ∧ getattr (DenormDBField.pre_save total_field order true).2 "total"
     = Some (VInt 42))
  ∧ (DenormDBField.pre_save total_field order false
     = (Ok (VInt 42), setattr order "total" (VInt 42))
     ∧ getattr (DenormDBField.pre_save total_field order false).2 "total"
       = Some (VInt 42)).
Proof.
  split.
  - apply (computed_pre_save_stores_result total_field "total"
             (call order_total) order true (VInt 42) order
             (computed_contribute_attached _ _ _ _ _ _ _ _)).
    reflexivity.
  - apply (computed_pre_save_stores_result total_field "total"
             (call order_total) order false (VInt 42) order
             (computed_contribute_attached _ _ _ _ _ _ _ _)).
    reflexivity.
Defined.

(** C5, as stated, fails: a compute function that assigns the total of an
    order and then raises leaves the attribute at the value it assigned,
    not at the value it had before [pre_save] was called. *)
Lemma computed_pre_save_failure_after_assignment :
  DenormDBField.pre_save overwriting_field order false
  = (Raise (Exception "ValueError"), setattr order "total" (VInt 99))
  ∧ getattr order "total" = Some (VInt 5)
  ∧ getattr (DenormDBField.pre_save overwriting_field order false).2 "total"
    = Some (VInt 99)
  ∧ getattr (DenormDBField.pre_save overwriting_field order false).2 "total"
    ≠ getattr order "total".
Proof.
  split; [reflexivity|]. split; [reflexivity|]. split; [reflexivity|].
  vm_compute. discriminate.
Qed.

(** C5, amended: for a computed field attached under [name] whose
    descriptor is bound to the compute function [f], when [f] raises [e] on
    the instance, [pre_save] raises [e] to its caller and writes nothing
    itself: the instance, and with it the attribute, is left exactly as
    [f] left it. *)
Theorem computed_pre_save_failure self name f o add e o' :
  computed_attached self name f →
  f o = (Raise e, o') →
  DenormDBField.pre_save self o add = (Raise e, o')
  ∧ getattr (DenormDBField.pre_save self o add).2 name = getattr o' name.
Proof.
  intros Hat Hf. by rewrite (computed_pre_save _ _ _ _ _ Hat), Hf.
Qed.

Lemma computed_pre_save_failure_witness :
  DenormDBField.pre_save total_field broken_order false
  = (Raise (Exception "TypeError"), broken_order)
  ∧ getattr (DenormDBField.pre_save total_field broken_order false).2 "total"
    = Some (VInt 5).
Proof.
  apply (computed_pre_save_failure total_field "total" (call order_total)
           broken_order false (Exception "TypeError") broken_order
           (computed_contribute_attached _ _ _ _ _ _ _ _)).
  reflexivity.
Defined.

(** ** The cache-key field's pre-save policy *)

(** C3: for a cache-key field attached to [cls] under [name] whose
    descriptor has the compute function [token], [pre_save] with
    [add = true] calls [token] on the instance, writes the token it returns
    to the attribute and returns it, so that the attribute reads that token
    afterwards; with [add = false] it writes and returns the value of the
    persisted row of the instance's primary key, so that the attribute
    reads that value afterwards, and the outcome is the same whatever the
    compute function is: it is not called. *)
Theorem cache_key_pre_save_policy db self cls name token o :
  cache_key_attached self cls name token →
  (∀ value o', token o = (Ok value, o') →
     CacheKeyField.pre_save db self o true = (Ok value, setattr o' name value)
     ∧ getattr (CacheKeyField.pre_save db self o true).2 name = Some value)
  ∧ (∀ row, persisted db cls o = Some row →
       CacheKeyField.pre_save db self o false
       = (Ok (row name), setattr o name (row name))
       ∧ getattr (CacheKeyField.pre_save db self o false).2 name
         = Some (row name))
  ∧ (∀ self' token', cache_key_attached self' cls name token' →
       CacheKeyField.pre_save db self' o false
       = CacheKeyField.pre_save db self o false).
Proof.
  intros Hat. split; [|split].
  - intros value o' Htok.
    rewrite (cache_key_pre_save_insert _ _ _ _ _ _ Hat), Htok.
    split; [done | apply getattr_setattr].
  - intros row Hrow.
    rewrite (cache_key_pre_save_update _ _ _ _ _ _ Hat), Hrow.
    split; [done | apply getattr_setattr].
  - intros self' token' Hat'.
    by rewrite (cache_key_pre_save_update _ _ _ _ _ _ Hat),
               (cache_key_pre_save_update _ _ _ _ _ _ Hat').
Qed.

Lemma cache_key_pre_save_policy_witness :
  (CacheKeyField.pre_save author_db (cache_key_field fixed_token) author true
   = (Ok (VInt 123456789), setattr author "cache_key" (VInt 123456789))
   ∧ getattr (CacheKeyField.pre_save author_db (cache_key_field fixed_token)
                author true).2 "cache_key" = Some (VInt 123456789))
  ∧ (CacheKeyField.pre_save author_db (cache_key_field fixed_token) author
       false
     = (Ok (VInt 77), setattr author "cache_key" (VInt 77))
     ∧ getattr (CacheKeyField.pre_save author_db (cache_key_field fixed_token)
                  author false).2 "cache_key" = Some (VInt 77))
  ∧ CacheKeyField.pre_save author_db (cache_key_field failing_token) author
      false
    = CacheKeyField.pre_save author_db (cache_key_field fixed_token) author
        false.
Proof.
  destruct (cache_key_pre_save_policy author_db (cache_key_field fixed_token)
              "Author" "cache_key" fixed_token author
              (cache_key_contribute_attached _ _ _ _ _ _))
    as (Hadd & Hupd & Hany).
  split; [|split].
  - apply Hadd. reflexivity.
  - apply (Hupd (author_row 3)). reflexivity.
  - apply (Hany _ failing_token). apply cache_key_contribute_attached.
Defined.

(** ** Read-back of a row that does not exist *)

(** C6: when the store holds no row of [cls] for the primary key of the
    instance, [pre_save] with [add = false] of a count field and of a
    cache-key field attached to [cls] raises [IndexError], the failure of
    the lookup, to its caller, and leaves the instance as it was: the
    attribute is not written. *)
Theorem pre_save_update_not_found db cls name o :
  persisted db cls o = None →
  (∀ self, count_attached self cls name →
     CountField.pre_save db self o false = (Raise IndexError, o))
  ∧ (∀ self token, cache_key_attached self cls name token →
       CacheKeyField.pre_save db self o false = (Raise IndexError, o)).
Proof.
  intros Hnone. split.
  - intros self Hat. by rewrite (count_pre_save_update _ _ _ _ _ Hat), Hnone.
  - intros self token Hat.
    by rewrite (cache_key_pre_save_update _ _ _ _ _ _ Hat), Hnone.
Qed.

Lemma pre_save_update_not_found_witness :
  CountField.pre_save empty_author_db book_count_field author false
  = (Raise IndexError, author)
  ∧ CacheKeyField.pre_save empty_author_db (cache_key_field fixed_token)
      author false
    = (Raise IndexError, author).
Proof.
  destruct (pre_save_update_not_found empty_author_db "Author" "book_count"
              author eq_refl) as [Hcount _].
  destruct (pre_save_update_not_found empty_author_db "Author" "cache_key"
              author eq_refl) as [_ Hkey].
  split.
  - apply Hcount. apply count_contribute_attached.
  - apply (Hkey _ fixed_token). apply cache_key_contribute_attached.
Defined.

(** ** Registration of the many-to-many hooks *)

Lemma connect_registered receivers r sender :
  (r, sender) ∈ fst <$> connect receivers r sender.
Proof.
  unfold connect. case_decide as Hin; [done|].
  rewrite fmap_app. apply elem_of_app. right. simpl. set_solver.
Qed.

Lemma connect_again receivers r sender :
  (r, sender) ∈ fst <$> receivers → connect receivers r sender = receivers.
Proof. intros Hin. unfold connect. by case_decide. Qed.

Lemma registrations_none receivers key :
  key ∉ fst <$> receivers → registrations receivers key = 0%nat.
Proof.
  unfold registrations. induction receivers as [|e rest IH]; [done|].
  rewrite fmap_cons, not_elem_of_cons. intros [Hne Hrest].
  rewrite filter_cons. case_decide as Heq; [by destruct Hne|]. by apply IH.
Qed.

Lemma registrations_some receivers key :
  key ∈ fst <$> receivers → (1 ≤ registrations receivers key)%nat.
Proof.
  unfold registrations. induction receivers as [|e rest IH].
  - by intros ?%elem_of_nil.
  - rewrite fmap_cons, elem_of_cons, filter_cons. intros [Heq | Hin].
    + case_decide; [simpl; lia | congruence].
    + specialize (IH Hin). case_decide; simpl; lia.
Qed.

Lemma registrations_connect receivers r sender :
  (registrations receivers (r, sender) ≤ 1)%nat →
  registrations (connect receivers r sender) (r, sender) = 1%nat.
Proof.
  intros Hle. unfold connect. case_decide as Hin.
  - apply registrations_some in Hin. lia.
  - apply registrations_none in Hin. unfold registrations in *.
    rewrite filter_app, length_app, Hin, filter_cons.
    by case_decide.
Qed.

Lemma attach_pre_save_signal bulk cls a signals :
  pre_save_signal (attach bulk cls a signals)
  = connect (pre_save_signal signals) many_to_many_pre_save (Some cls).
Proof. by destruct a as [[oid self] name]. Qed.

Lemma attach_post_save_signal bulk cls a signals :
  post_save_signal (attach bulk cls a signals)
  = connect (post_save_signal signals) many_to_many_post_save (Some cls).
Proof. by destruct a as [[oid self] name]. Qed.

Lemma attach_all_registered bulk cls fields signals :
  (many_to_many_pre_save, Some cls) ∈ fst <$> pre_save_signal signals →
  (many_to_many_post_save, Some cls) ∈ fst <$> post_save_signal signals →
  pre_save_signal (attach_all bulk cls fields signals)
  = pre_save_signal signals
  ∧ post_save_signal (attach_all bulk cls fields signals)
    = post_save_signal signals.
Proof.
  revert signals. induction fields as [|a rest IH]; intros signals Hpre Hpost;
    [done|].
  simpl.
  assert (pre_save_signal (attach bulk cls a signals)
          = pre_save_signal signals) as Hpre1
    by (rewrite attach_pre_save_signal; by apply connect_again).
  assert (post_save_signal (attach bulk cls a signals)
          = post_save_signal signals) as Hpost1
    by (rewrite attach_post_save_signal; by apply connect_again).
  destruct (IH (attach bulk cls a signals)) as [-> ->];
    by rewrite ?Hpre1, ?Hpost1.
Qed.

(** C4: attaching computed fields to one class registers each of the two
    many-to-many hooks once for that class.  After the first field is
    attached, attaching any further fields to the same class returns
    normally and leaves the registrations of the pre-save and of the
    post-save signal as they were; and when each hook was registered for the
    class at most once before, it is registered exactly once after. *)
Theorem many_to_many_hooks_registered_once bulk cls first rest signals :
  let once := attach bulk cls first signals in
  let more := attach_all bulk cls rest once in
  (pre_save_signal more = pre_save_signal once
   ∧ post_save_signal more = post_save_signal once)
  ∧ ((registrations (pre_save_signal signals)
        (many_to_many_pre_save, Some cls) ≤ 1)%nat →
     registrations (pre_save_signal more) (many_to_many_pre_save, Some cls)
     = 1%nat)
  ∧ ((registrations (post_save_signal signals)
        (many_to_many_post_save, Some cls) ≤ 1)%nat →
     registrations (post_save_signal more) (many_to_many_post_save, Some cls)
     = 1%nat).
Proof.
  intros once more.
  assert (pre_save_signal more = pre_save_signal once
          ∧ post_save_signal more = post_save_signal once) as [Hpre Hpost].
  { apply attach_all_registered; unfold once.
    - rewrite attach_pre_save_signal. apply connect_registered.
    - rewrite attach_post_save_signal. apply connect_registered. }
  split; [done|]. rewrite Hpre, Hpost. unfold once.
  rewrite attach_pre_save_signal, attach_post_save_signal.
  split; apply registrations_connect.
Qed.

Lemma many_to_many_hooks_registered_once_witness :
  let fields :=
    [(1%nat, (denormalized IntegerField [] ∅ shipping_cost).1, "shipping")] in
  let signals :=
    attach_all None "Order"
      ((0%nat, (denormalized IntegerField [] ∅ order_total).1, "total")
         :: fields)
      no_signals in
  pre_save_signal signals
  = [((many_to_many_pre_save, Some "Order"), many_to_many_pre_save)]
  ∧ registrations (pre_save_signal signals)
      (many_to_many_pre_save, Some "Order") = 1%nat
  ∧ registrations (post_save_signal signals)
      (many_to_many_post_save, Some "Order") = 1%nat.
Proof.
  intros fields signals.
  destruct (many_to_many_hooks_registered_once None "Order"
              (0%nat, (denormalized IntegerField [] ∅ order_total).1, "total")
              fields no_signals) as (_ & Hpre & Hpost).
  split; [reflexivity|]. split; [apply Hpre | apply Hpost]; vm_compute; lia.
Defined.

(** ** Dependencies of a cache-key field *)

Lemma declare_dependencies self calls :
  CacheKeyField.dependencies (declare self calls)
  = CacheKeyField.dependencies self ++ (declaration <$> calls).
Proof.
  revert self. induction calls as [|call rest IH]; intros self; simpl.
  - by rewrite app_nil_r.
  - rewrite IH. simpl. by rewrite <- app_assoc.
Qed.

(** C7: [k] calls of [depend_on_related] on a new cache-key field leave
    exactly [k] declarations in its dependency list, one per call and in
    the order of the calls, each built from the arguments of its call; at
    class attachment the descriptor's dependency list is that list of the
    field, declaration by declaration, each now carrying the name the field
    was attached under. *)
Theorem depend_on_related_accumulates kwargs calls oid token cls name signals :
  let self := declare (CacheKeyField.__init__ kwargs) calls in
  let attached :=
    (CacheKeyField.contribute_to_class oid token self cls name signals).1 in
  CacheKeyField.dependencies self = declaration <$> calls
  ∧ length (CacheKeyField.dependencies self) = length calls
  ∧ ∃ d, CacheKeyField.denorm attached = Some d
         ∧ CacheKeyField.d_depend d = CacheKeyField.dependencies attached
         ∧ CacheKeyField.d_depend d
           = CacheKeyField.set_fieldname name <$> (declaration <$> calls)
         ∧ length (CacheKeyField.d_depend d) = length calls
         ∧ (λ dep, (dep_args dep, dep_kwargs dep))
             <$> CacheKeyField.d_depend d = calls.
Proof.
  intros self attached.
  assert (CacheKeyField.dependencies self = declaration <$> calls) as Hdeps
    by (unfold self; by rewrite declare_dependencies).
  split; [done|]. split; [by rewrite Hdeps, length_fmap|].
  eexists. split; [done|]. simpl. rewrite Hdeps.
  split; [done|]. split; [done|]. split; [by rewrite !length_fmap|].
  rewrite <- !list_fmap_compose.
  rewrite <- (list_fmap_id calls) at 2. apply list_fmap_ext.
  by intros i [args kw] _.
Qed.

(** ** The migration triple *)

(** C8, as stated, fails: the triple of a count field stored in the column
    [n_books] is the triple of the field without that option, so nothing
    that works from the triple alone gets the column of both back. *)
Lemma south_field_triple_drops_options :
  CountField.south_field_triple named_count_field
  = ("django.db.models.PositiveIntegerField", [], {["default" := "0"]})
  ∧ init_kwargs (CountField.base named_count_field) !! "db_column"
    = Some (VStr "n_books")
  ∧ ¬ ∃ rebuild,
        recreates_option rebuild "db_column" plain_count_field
        ∧ recreates_option rebuild "db_column" named_count_field.
Proof.
  split; [reflexivity|]. split; [reflexivity|].
  intros (rebuild & Hplain & Hnamed).
  unfold recreates_option in *.
  change (CountField.south_field_triple named_count_field)
    with (CountField.south_field_triple plain_count_field) in Hnamed.
  rewrite Hplain in Hnamed. vm_compute in Hnamed. discriminate.
Qed.

(** C8, amended: the first component of the triple names the underlying
    base field class: the module and name of the field class given to
    [denormalized] for a computed field, [PositiveIntegerField] for a count
    field, [BigIntegerField] for a cache-key field.  The arguments of a
    computed field are those South's introspector reports for it; those of
    a count field and of a cache-key field are always no positional
    argument and the one keyword ['default'] with the text [0], the default
    their underlying field is always built with, whatever other keywords
    the field was built with. *)
Theorem south_field_triple_names_base_class :
  (∀ introspector self,
     DenormDBField.south_field_triple introspector self
     = (fc_module (DenormDBField.DBField self) +:+ "."
          +:+ fc_name (DenormDBField.DBField self),
        (introspector self).1, (introspector self).2))
  ∧ (∀ self,
       CountField.south_field_triple self
       = ("django.db.models." +:+ fc_name PositiveIntegerField, [],
          {["default" := "0"]}))
  ∧ (∀ self,
       CacheKeyField.south_field_triple self
       = ("django.db.models." +:+ fc_name BigIntegerField, [],
          {["default" := "0"]}))
  ∧ (∀ oid manager_name kwargs,
       init_kwargs (CountField.base (CountField.__init__ oid manager_name kwargs))
         !! "default" = Some (VInt 0))
  ∧ (∀ kwargs,
       init_kwargs (CacheKeyField.base (CacheKeyField.__init__ kwargs))
         !! "default" = Some (VInt 0)).
Proof.
  split; [|split; [|split; [|split]]].
  - intros introspector self. unfold DenormDBField.south_field_triple.
    by destruct (introspector self).
  - done.
  - done.
  - intros oid manager_name kwargs. apply lookup_insert_eq.
  - intros kwargs. apply lookup_insert_eq.
Qed.

(** ** The constructors *)

(** C9, as stated, fails: a ['skip'] keyword given to [denormalized] does not
    reach the constructor of the underlying field. *)
Lemma denormalized_consumes_skip :
  init_kwargs
    (DenormDBField.base (denormalized IntegerField [] skip_kwargs order_total).1)
    !! "skip" = None
  ∧ skip_kwargs !! "skip" = Some (VTuple [VStr "lines"])
  ∧ ¬ forwards_unchanged skip_kwargs
        (denormalized IntegerField [] skip_kwargs order_total).1.
Proof.
  split; [reflexivity|]. split; [reflexivity|].
  intros Hfwd. specialize (Hfwd "skip"). vm_compute in Hfwd.
  assert (None = Some (VTuple [VStr "lines"])) as Habsurd
    by (apply Hfwd; discriminate).
  discriminate.
Qed.

(** C9, amended: the field that [denormalized] builds for a compute function
    has its underlying field constructed with the positional arguments as
    given, with [blank=True], and with [null=True] when no ['default']
    keyword was supplied (with a ['default'], [null] is as the caller gave
    it); the ['skip'] keyword is kept by the wrapper and not forwarded;
    every other keyword is forwarded unchanged. *)
Theorem denormalized_constructor_arguments DBField args kwargs func :
  let self := (denormalized DBField args kwargs func).1 in
  let forwarded := init_kwargs (DenormDBField.base self) in
  DenormDBField.DBField self = DBField
  ∧ DenormDBField.func self = func
  ∧ init_args (DenormDBField.base self) = args
  ∧ forwarded !! "blank" = Some (VBool true)
  ∧ forwarded !! "null"
    = match kwargs !! "default" with
      | None => Some (VBool true)
      | Some _ => kwargs !! "null"
      end
  ∧ forwarded !! "skip" = None
  ∧ DenormDBField.skip self = default VNone (kwargs !! "skip")
  ∧ (∀ key, key ≠ "blank" → key ≠ "null" → key ≠ "skip" →
       forwarded !! key = kwargs !! key).
Proof.
  intros self forwarded. unfold forwarded, self, denormalized.
  unfold DenormDBField.deco, DenormDBField.__init__, dict_pop. simpl.
  rewrite (lookup_insert_ne kwargs "blank" "default") by done.
  destruct (kwargs !! "default") as [dflt|] eqn:Hdefault;
    repeat split; try done; intros; by simplify_map_eq.
Qed.

Lemma denormalized_constructor_arguments_witness :
  let kwargs : kwargs_t :=
    <["max_length" := VInt 40]> (<["default" := VStr ""]> skip_kwargs) in
  let self := (denormalized IntegerField [VStr "title"] kwargs order_total).1 in
  init_args (DenormDBField.base self) = [VStr "title"]
  ∧ init_kwargs (DenormDBField.base self) !! "blank" = Some (VBool true)
  ∧ init_kwargs (DenormDBField.base self) !! "null" = None
  ∧ init_kwargs (DenormDBField.base self) !! "skip" = None
  ∧ init_kwargs (DenormDBField.base self) !! "max_length" = Some (VInt 40).
Proof.
  intros kwargs self.
  destruct (denormalized_constructor_arguments IntegerField [VStr "title"]
              kwargs order_total)
    as (_ & _ & Hargs & Hblank & Hnull & Hskip & _ & Hother).
  split; [exact Hargs|]. split; [exact Hblank|]. split; [exact Hnull|].
  split; [exact Hskip|].
  apply (Hother "max_length"); discriminate.
Defined.

(** C10: the constructors of the count field and of the cache-key field
    give the underlying field constructor a ['default'] of 0, whatever
    ['default'] the caller supplied, and otherwise the caller's keywords;
    the count field takes ['skip'] and ['filter'] out first, so that
    neither reaches the underlying field constructor. *)
Theorem constructors_force_default oid manager_name kwargs :
  let count := CountField.__init__ oid manager_name kwargs in
  let cache_key := CacheKeyField.__init__ kwargs in
  (init_kwargs (CountField.base count)
   = <["default" := VInt 0]> (delete "filter" (delete "skip" kwargs))
   ∧ init_args (CountField.base count) = []
   ∧ init_kwargs (CountField.base count) !! "default" = Some (VInt 0)
   ∧ init_kwargs (CountField.base count) !! "skip" = None
   ∧ init_kwargs (CountField.base count) !! "filter" = None
   ∧ CountField.d_skip (CountField.denorm count)
     = default VNone (kwargs !! "skip")
   ∧ CountField.d_filter (CountField.denorm count)
     = default (VDict []) (kwargs !! "filter"))
  ∧ (init_kwargs (CacheKeyField.base cache_key)
     = <["default" := VInt 0]> kwargs
     ∧ init_args (CacheKeyField.base cache_key) = []
     ∧ init_kwargs (CacheKeyField.base cache_key) !! "default"
       = Some (VInt 0)).
Proof.
  intros count cache_key. unfold count, cache_key.
  unfold CountField.__init__, CacheKeyField.__init__, dict_pop. simpl.
  repeat split; try done; by simplify_map_eq.
Qed.

(** * Further properties of the fields *)

(** ** What [pre_save] leaves alone *)

Lemma setattr_other o name v other :
  other ≠ name → getattr (setattr o name v) other = getattr o other.
Proof. intros Hne. unfold getattr, setattr; simpl. by rewrite lookup_insert_ne. Qed.

Lemma setattr_setattr o name v : setattr (setattr o name v) name v = setattr o name v.
Proof. unfold setattr; simpl. by rewrite insert_insert_eq. Qed.

Lemma persisted_setattr db model o name v :
  persisted db model (setattr o name v) = persisted db model o.
Proof. done. Qed.

(** X1: [pre_save] of an attached count field, and [pre_save] on update of
    an attached cache-key field, change nothing of the instance but the
    field's own attribute: the primary key and every other attribute are
    as before, whether the call returns or raises. *)
Theorem read_back_pre_save_frame db cls name o other :
  other ≠ name →
  (∀ self add, count_attached self cls name →
     pk (CountField.pre_save db self o add).2 = pk o
     ∧ getattr (CountField.pre_save db self o add).2 other = getattr o other)
  ∧ (∀ self token, cache_key_attached self cls name token →
       pk (CacheKeyField.pre_save db self o false).2 = pk o
       ∧ getattr (CacheKeyField.pre_save db self o false).2 other
         = getattr o other).
Proof.
  intros Hne. split.
  - intros self [|] Hat.
    + rewrite (count_pre_save_insert _ _ _ _ _ Hat). simpl.
      by rewrite setattr_other.
    + rewrite (count_pre_save_update _ _ _ _ _ Hat).
      destruct (persisted db cls o); simpl; [by rewrite setattr_other | done].
  - intros self token Hat.
    rewrite (cache_key_pre_save_update _ _ _ _ _ _ Hat).
    destruct (persisted db cls o); simpl; [by rewrite setattr_other | done].
Qed.

Lemma read_back_pre_save_frame_witness :
  (pk (CountField.pre_save author_db book_count_field author false).2
   = Some 1
   ∧ getattr (CountField.pre_save author_db book_count_field author false).2
       "cache_key" = None)
  ∧ (pk (CacheKeyField.pre_save author_db (cache_key_field fixed_token)
           author false).2 = Some 1
     ∧ getattr (CacheKeyField.pre_save author_db (cache_key_field fixed_token)
                  author false).2 "book_count" = Some (VInt 0)).
Proof.
  split.
  - assert ("cache_key" ≠ "book_count") as Hne by discriminate.
    destruct (read_back_pre_save_frame author_db "Author" "book_count" author
                "cache_key" Hne) as [Hcount _].
    apply (Hcount book_count_field false). apply count_contribute_attached.
  - assert ("book_count" ≠ "cache_key") as Hne by discriminate.
    destruct (read_back_pre_save_frame author_db "Author" "cache_key" author
                "book_count" Hne) as [_ Hkey].
    apply (Hkey _ fixed_token). apply cache_key_contribute_attached.
Defined.

(** X2: [pre_save] of an attached computed field adds one write to what the
    compute function did: when the compute function leaves the instance as
    [o'], the instance after [pre_save] has the primary key of [o'] and,
    for every attribute other than the field's own, the value it has in
    [o']. *)
Theorem computed_pre_save_frame self name f o add outcome o' other :
  computed_attached self name f →
  f o = (outcome, o') →
  other ≠ name →
  pk (DenormDBField.pre_save self o add).2 = pk o'
  ∧ getattr (DenormDBField.pre_save self o add).2 other = getattr o' other.
Proof.
  intros Hat Hf Hne. rewrite (computed_pre_save _ _ _ _ _ Hat), Hf.
  destruct outcome; simpl; [by rewrite setattr_other | done].
Qed.

Lemma computed_pre_save_frame_witness :
  pk (DenormDBField.pre_save total_field order true).2 = Some 7
  ∧ getattr (DenormDBField.pre_save total_field order true).2 "lines"
    = Some (VTuple [VInt 40; VInt 2]).
Proof.
  apply (computed_pre_save_frame total_field "total" (call order_total) order
           true (Ok (VInt 42)) order "lines"
           (computed_contribute_attached _ _ _ _ _ _ _ _)).
  - reflexivity.
  - discriminate.
Defined.


(** ** What [pre_save] returns and what it stores *)

(** X3: whenever [pre_save] of an attached field returns a value, that
    value is the field's attribute on the instance afterwards; this holds
    for the count field and the cache-key field on insert and on update,
    and for the computed field. *)
Theorem pre_save_returns_what_it_stores db cls name o add value o' :
  (∀ self, count_attached self cls name →
     CountField.pre_save db self o add = (Ok value, o') →
     getattr o' name = Some value)
  ∧ (∀ self token, cache_key_attached self cls name token →
       CacheKeyField.pre_save db self o add = (Ok value, o') →
       getattr o' name = Some value)
  ∧ (∀ self f, computed_attached self name f →
       DenormDBField.pre_save self o add = (Ok value, o') →
       getattr o' name = Some value).
Proof.
  split; [|split].
  - intros self Hat. destruct add.
    + rewrite (count_pre_save_insert _ _ _ _ _ Hat).
      intros [= <- <-]. apply getattr_setattr.
    + rewrite (count_pre_save_update _ _ _ _ _ Hat).
      destruct (persisted db cls o); intros [= <- <-]. apply getattr_setattr.
  - intros self token Hat. destruct add.
    + rewrite (cache_key_pre_save_insert _ _ _ _ _ _ Hat).
      destruct (token o) as [[v|e] o1]; intros [= <- <-].
      apply getattr_setattr.
    + rewrite (cache_key_pre_save_update _ _ _ _ _ _ Hat).
      destruct (persisted db cls o); intros [= <- <-]. apply getattr_setattr.
  - intros self f Hat. rewrite (computed_pre_save _ _ _ _ _ Hat).
    destruct (f o) as [[v|e] o1]; intros [= <- <-]. apply getattr_setattr.
Qed.

Lemma pre_save_returns_what_it_stores_witness :
  getattr (setattr author "book_count" (VInt 3)) "book_count"
  = Some (VInt 3)
  ∧ getattr (setattr author "cache_key" (VInt 123456789)) "cache_key"
    = Some (VInt 123456789).
Proof.
  split.
  - destruct (pre_save_returns_what_it_stores author_db "Author" "book_count"
                author false (VInt 3) (setattr author "book_count" (VInt 3)))
      as (Hcount & _ & _).
    apply (Hcount book_count_field).
    + apply count_contribute_attached.
    + reflexivity.
  - destruct (pre_save_returns_what_it_stores author_db "Author" "cache_key"
                author true (VInt 123456789)
                (setattr author "cache_key" (VInt 123456789)))
      as (_ & Hkey & _).
    apply (Hkey (cache_key_field fixed_token) fixed_token).
    + apply cache_key_contribute_attached.
    + reflexivity.
Defined.

(** X4: against an unchanged store, [pre_save] of an attached count field
    is idempotent, and so is [pre_save] on update of an attached cache-key
    field: run again on the instance the first run left, it has the same
    outcome and leaves the same instance. *)
Theorem read_back_pre_save_idempotent db cls name o :
  (∀ self add, count_attached self cls name →
     CountField.pre_save db self (CountField.pre_save db self o add).2 add
     = CountField.pre_save db self o add)
  ∧ (∀ self token, cache_key_attached self cls name token →
       CacheKeyField.pre_save db self
         (CacheKeyField.pre_save db self o false).2 false
       = CacheKeyField.pre_save db self o false).
Proof.
  split.
  - intros self [|] Hat.
    + rewrite !(count_pre_save_insert _ _ _ _ _ Hat). cbn [snd].
      by rewrite setattr_setattr.
    + rewrite !(count_pre_save_update _ _ _ _ _ Hat).
      destruct (persisted db cls o) as [row|] eqn:Hrow; cbn [snd].
      * by rewrite persisted_setattr, Hrow, setattr_setattr.
      * by rewrite Hrow.
  - intros self token Hat.
    rewrite !(cache_key_pre_save_update _ _ _ _ _ _ Hat).
    destruct (persisted db cls o) as [row|] eqn:Hrow; cbn [snd].
    + by rewrite persisted_setattr, Hrow, setattr_setattr.
    + by rewrite Hrow.
Qed.

Lemma read_back_pre_save_idempotent_witness :
  CountField.pre_save author_db book_count_field
    (CountField.pre_save author_db book_count_field author false).2 false
  = (Ok (VInt 3), setattr author "book_count" (VInt 3)).
Proof.
  destruct (read_back_pre_save_idempotent author_db "Author" "book_count"
              author) as [Hcount _].
  rewrite (Hcount book_count_field false (count_contribute_attached _ _ _ _)).
  reflexivity.
Defined.

(** ** Failures of [pre_save] *)

(** X5: when the compute function of an attached cache-key field raises on
    insert, [pre_save] raises the same exception, for any store, and
    leaves the instance as the compute function left it: nothing is
    written. *)
Theorem cache_key_pre_save_insert_failure db self cls name token o e o' :
  cache_key_attached self cls name token →
  token o = (Raise e, o') →
  CacheKeyField.pre_save db self o true = (Raise e, o').
Proof.
  intros Hat Htok. by rewrite (cache_key_pre_save_insert _ _ _ _ _ _ Hat), Htok.
Qed.

Lemma cache_key_pre_save_insert_failure_witness :
  CacheKeyField.pre_save author_db (cache_key_field failing_token) author true
  = (Raise (Exception "RuntimeError"), author).
Proof.
  apply (cache_key_pre_save_insert_failure author_db
           (cache_key_field failing_token) "Author" "cache_key" failing_token
           author (Exception "RuntimeError") author).
  - apply cache_key_contribute_attached.
  - reflexivity.
Defined.

Lemma declare_unattached self calls :
  CacheKeyField.denorm (declare self calls) = CacheKeyField.denorm self.
Proof.
  revert self. induction calls as [|call rest IH]; intros self; [done|].
  simpl. by rewrite IH.
Qed.

(** X6: a computed field and a cache-key field get their descriptor only
    when they are attached to a class.  Before that, whatever dependencies
    were declared on the cache-key field, [pre_save] raises
    [AttributeError] for the missing descriptor on insert and on update,
    without calling the compute function and without touching the
    instance. *)
Theorem pre_save_before_attachment DBField func args kwargs db calls o add :
  DenormDBField.pre_save (DenormDBField.__init__ DBField func args kwargs) o add
  = (Raise (AttributeError "denorm"), o)
  ∧ CacheKeyField.pre_save db (declare (CacheKeyField.__init__ kwargs) calls)
      o add
    = (Raise (AttributeError "denorm"), o).
Proof.
  split; [done|].
  unfold CacheKeyField.pre_save. rewrite declare_unattached.
  by destruct add.
Qed.

(** ** The registries under attachment *)

Lemma connect_prefix receivers r sender :
  receivers `prefix_of` connect receivers r sender.
Proof.
  unfold connect. case_decide; [done|]. by apply prefix_app_r.
Qed.


Lemma registrations_connect_other receivers r sender key :
  key ≠ (r, sender) →
  registrations (connect receivers r sender) key = registrations receivers key.
Proof.
  intros Hne. unfold connect. case_decide; [done|].
  unfold registrations. rewrite filter_app, length_app, filter_cons.
  case_decide as Heq; simpl in *; [congruence | lia].
Qed.

(** X7: attaching a field of any of the three kinds never removes or moves
    a registration: each of the three signals keeps the registrations it
    had, in their order, and new ones come after them. *)
Theorem contribute_to_class_keeps_registrations bulk oid token cls name
    args kwargs signals :
  (∀ self, keeps_registrations signals
     (DenormDBField.contribute_to_class bulk oid self cls name args kwargs
        signals).2)
  ∧ (∀ self, keeps_registrations signals
       (CountField.contribute_to_class self cls name signals).2)
  ∧ (∀ self, keeps_registrations signals
       (CacheKeyField.contribute_to_class oid token self cls name signals).2).
Proof.
  unfold keeps_registrations.
  repeat split; simpl; try done; apply connect_prefix.
Qed.




Lemma attach_class_prepared bulk cls a signals :
  class_prepared (attach bulk cls a signals)
  = connect (class_prepared signals) (denorm_setup a.1.1) (Some cls).
Proof. by destruct a as [[oid self] name]. Qed.

Lemma attach_all_cons bulk cls a rest signals :
  attach_all bulk cls (a :: rest) signals
  = attach_all bulk cls rest (attach bulk cls a signals).
Proof. done. Qed.

Lemma attach_all_setup_other bulk cls fields signals oid :
  oid ∉ attachment_oids fields →
  registrations (class_prepared (attach_all bulk cls fields signals))
    (denorm_setup oid, Some cls)
  = registrations (class_prepared signals) (denorm_setup oid, Some cls).
Proof.
  revert signals. induction fields as [|a rest IH]; intros signals Hnot;
    [done|].
  unfold attachment_oids in Hnot. rewrite fmap_cons, not_elem_of_cons in Hnot.
  destruct Hnot as [Hne Hrest].
  rewrite attach_all_cons, IH by done.
  rewrite attach_class_prepared. apply registrations_connect_other.
  congruence.
Qed.

(** X10: unlike the many-to-many hooks, the setup of each computed field's
    descriptor is registered on its own: attaching fields whose descriptors
    are distinct objects, none of them registered yet, to one class adds
    one registration to the class-prepared signal per field, and each
    descriptor's setup is then registered for the class exactly once. *)
Theorem descriptor_setup_registered_per_field bulk cls fields signals :
  NoDup (attachment_oids fields) →
  (∀ oid, oid ∈ attachment_oids fields →
     (denorm_setup oid, Some cls) ∉ fst <$> class_prepared signals) →
  length (class_prepared (attach_all bulk cls fields signals))
  = (length (class_prepared signals) + length fields)%nat
  ∧ ∀ oid, oid ∈ attachment_oids fields →
      registrations (class_prepared (attach_all bulk cls fields signals))
        (denorm_setup oid, Some cls) = 1%nat.
Proof.
  revert signals. induction fields as [|a rest IH]; intros signals Hnd Hnew.
  - split; [simpl; lia|]. by intros oid ?%elem_of_nil.
  - unfold attachment_oids in Hnd, Hnew. rewrite fmap_cons in Hnd, Hnew.
    apply NoDup_cons in Hnd as [Hfirst Hnd].
    assert ((denorm_setup a.1.1, Some cls) ∉ fst <$> class_prepared signals)
      as Hfresh by (apply Hnew; left).
    assert (class_prepared (attach bulk cls a signals)
            = class_prepared signals
                ++ [((denorm_setup a.1.1, Some cls), denorm_setup a.1.1)])
      as Hone.
    { rewrite attach_class_prepared. unfold connect. by case_decide. }
    destruct (IH (attach bulk cls a signals) Hnd) as [Hlen Hreg].
    { intros oid Hin. rewrite Hone, fmap_app, not_elem_of_app. split.
      - apply Hnew. by right.
      - simpl. intros Heq%list_elem_of_singleton.
        injection Heq as ->. by apply Hfirst. }
    rewrite attach_all_cons. split.
    + rewrite Hlen, Hone, length_app. simpl. lia.
    + intros oid [->|Hin]%elem_of_cons; [|by apply Hreg].
      rewrite attach_all_setup_other by done.
      rewrite attach_class_prepared. apply registrations_connect.
      rewrite registrations_none by done. lia.
Qed.

Lemma descriptor_setup_registered_per_field_witness :
  let fields :=
    [(0%nat, (denormalized IntegerField [] ∅ order_total).1, "total");
     (1%nat, (denormalized IntegerField [] ∅ shipping_cost).1, "shipping")] in
  length (class_prepared (attach_all None "Order" fields no_signals)) = 2%nat
  ∧ length (pre_save_signal (attach_all None "Order" fields no_signals))
    = 1%nat.
Proof.
  intros fields. split; [|reflexivity].
  assert (NoDup (attachment_oids fields)) as Hnd.
  { apply NoDup_cons. split; [|apply NoDup_singleton].
    intros Hin%list_elem_of_singleton. discriminate. }
  destruct (descriptor_setup_registered_per_field None "Order" fields
              no_signals Hnd) as [Hlen _].
  - intros oid _. apply not_elem_of_nil.
  - exact Hlen.
Defined.

(** ** From the constructor to the descriptor *)

(** X11: the field that [denormalized] builds, once attached to [cls] under
    [name], has a descriptor for that class and name whose compute function
    is the decorated function and whose skip condition is the ['skip']
    keyword given to [denormalized], [None] when there was none; its
    dependency list has one declaration per entry of the function's
    [depend] attribute, in order and built from the entry (none when the
    function has no such attribute).  The descriptor is a
    [BaseCallbackDenorm] when [DENORM_BULK_UNSAFE_TRIGGERS] is set and
    true, and a [CallbackDenorm] otherwise.  Attaching leaves what the
    underlying field was constructed with as it was. *)
Theorem denormalized_descriptor bulk oid DBField args kwargs func cls name
    cargs ckwargs signals :
  let self := (denormalized DBField args kwargs func).1 in
  let attached :=
    (DenormDBField.contribute_to_class bulk oid self cls name cargs ckwargs
       signals).1 in
  ∃ d, DenormDBField.denorm attached = Some d
       ∧ DenormDBField.d_func d = func
       ∧ DenormDBField.d_skip d = default VNone (kwargs !! "skip")
       ∧ DenormDBField.d_model d = cls
       ∧ DenormDBField.d_fieldname d = name
       ∧ declared_from <$> DenormDBField.d_depend d
         = default [] (fn_depend func)
       ∧ DenormDBField.d_class d
         = match bulk with
           | Some true => DenormDBField.BaseCallbackDenorm
           | _ => DenormDBField.CallbackDenorm
           end
       ∧ DenormDBField.base attached = DenormDBField.base self.
Proof.
  intros self attached. eexists. split; [done|]. simpl.
  split; [done|]. split.
  { destruct (kwargs !! "default") eqn:Hdefault;
      rewrite lookup_insert_ne, ?Hdefault by done; by simplify_map_eq. }
  split; [done|]. split; [done|]. split.
  { rewrite <- list_fmap_compose.
    rewrite <- (list_fmap_id (default [] (fn_depend func))) at 2.
    apply list_fmap_ext. by intros i [[dcls dargs] dkwargs] _. }
  done.
Qed.

(** X12: a count field built for the relation manager [manager_name] and
    attached to [cls] under [name] has a descriptor for that manager, class
    and name, with the ['filter'] keyword as its row filter (the empty
    dictionary when there was none) and the ['skip'] keyword as its skip
    condition ([None] when there was none).  Attaching registers the
    descriptor's setup with the class-prepared signal without a sender,
    connects nothing to the pre-save and post-save signals, and leaves
    what the underlying field was constructed with as it was. *)
Theorem count_descriptor oid manager_name kwargs cls name signals :
  let self := CountField.__init__ oid manager_name kwargs in
  let attached := (CountField.contribute_to_class self cls name signals).1 in
  let signals' := (CountField.contribute_to_class self cls name signals).2 in
  let d := CountField.denorm attached in
  (CountField.d_manager_name d = manager_name
   ∧ CountField.d_filter d = default (VDict []) (kwargs !! "filter")
   ∧ CountField.d_skip d = default VNone (kwargs !! "skip")
   ∧ CountField.d_model d = Some cls
   ∧ CountField.d_fieldname d = Some name)
  ∧ (class_prepared signals'
     = connect (class_prepared signals) (denorm_setup oid) None
     ∧ pre_save_signal signals' = pre_save_signal signals
     ∧ post_save_signal signals' = post_save_signal signals)
  ∧ CountField.base attached = CountField.base self
  ∧ CountField.kwargs attached = init_kwargs (CountField.base self).
Proof.
  intros self attached signals' d. repeat split; try done.
  unfold d, attached, self; simpl. by rewrite lookup_delete_ne.
Qed.



(** ** Declarations and attachment *)

(** X14: the field name on the declarations of a cache-key field is set at
    attachment only.  A dependency declared after the field was attached
    comes last in the field's list and carries no field name, while the
    earlier ones carry the name of the attachment; attaching the field
    again stamps every declaration, the late one included, with the new
    name and hands all of them to the new descriptor. *)
Theorem late_declaration oid token kwargs calls cls name signals args kw
    oid' cls' name' signals' :
  let attached :=
    (CacheKeyField.contribute_to_class oid token
       (declare (CacheKeyField.__init__ kwargs) calls) cls name signals).1 in
  let late := CacheKeyField.depend_on_related attached args kw in
  let again :=
    (CacheKeyField.contribute_to_class oid' token late cls' name' signals').1 in
  dep_fieldname <$> CacheKeyField.dependencies late
  = replicate (length calls) (Some name) ++ [None]
  ∧ declared_from <$> CacheKeyField.dependencies late
    = declared_from <$> (declaration <$> (calls ++ [(args, kw)]))
  ∧ dep_fieldname <$> CacheKeyField.dependencies again
    = replicate (S (length calls)) (Some name')
  ∧ ∃ d, CacheKeyField.denorm again = Some d
         ∧ CacheKeyField.d_depend d = CacheKeyField.dependencies again
         ∧ declared_from <$> CacheKeyField.d_depend d
           = declared_from <$> (declaration <$> (calls ++ [(args, kw)])).
Proof.
  intros attached late again.
  assert (CacheKeyField.dependencies late
          = (CacheKeyField.set_fieldname name <$> (declaration <$> calls))
              ++ [declaration (args, kw)]) as Hlate.
  { unfold late, attached. simpl. by rewrite declare_dependencies. }
  assert (∀ n (deps : list Dependency),
            dep_fieldname <$> (CacheKeyField.set_fieldname n <$> deps)
            = replicate (length deps) (Some n)) as Hstamp.
  { intros n deps. induction deps as [|dep deps IH]; [done|].
    rewrite !fmap_cons, IH. done. }
  assert (∀ n (deps : list Dependency),
            declared_from <$> (CacheKeyField.set_fieldname n <$> deps)
            = declared_from <$> deps) as Hsame.
  { intros n deps. rewrite <- list_fmap_compose. by apply list_fmap_ext. }
  assert (CacheKeyField.dependencies again
          = CacheKeyField.set_fieldname name'
              <$> CacheKeyField.dependencies late) as Hagain by done.
  split; [|split; [|split]].
  - by rewrite Hlate, fmap_app, Hstamp, length_fmap.
  - by rewrite Hlate, !fmap_app, Hsame.
  - rewrite Hagain, Hstamp, Hlate, length_app, length_fmap, length_fmap.
    simpl. by rewrite Nat.add_1_r.
  - exists {| CacheKeyField.d_oid := oid';
              CacheKeyField.d_depend := CacheKeyField.dependencies again;
              CacheKeyField.d_func := token; CacheKeyField.d_model := cls';
              CacheKeyField.d_fieldname := name' |}.
    split; [done|]. split; [done|]. cbn [CacheKeyField.d_depend].
    by rewrite Hagain, Hsame, Hlate, !fmap_app, Hsame.
Qed.

